(** * TopiSkiJump: the dataset generator [src/generate.py]

    A shallow embedding of the module's two frozen dataclasses, [Hill] and
    [SkiJump], of their methods and of the script body, followed by the
    properties of the natural-language specification that can be settled
    on them.

    Numbers.  A Python [float] and a [numpy.float64] are both IEEE-754
    binary64 values: they are modelled by the primitive type [float],
    whose operations round to nearest even, overflow to an infinity,
    underflow to zero and propagate nan exactly as the hardware does.
    The two functions the module takes from numpy, [tan] and [cos], are
    not defined by IEEE-754; they are a parameter [libm], of which only
    four facts are used: their values at zero and their symmetry.  The
    power [** 2] goes through the C library's [pow], which is taken to
    return the correctly rounded square.

    Effects.  A method is a computation in the monad [M S], which threads
    the objects the call can reach (its receiver, and its argument when
    that is an object) and either returns a value or raises. *)

From Stdlib Require Import Floats ZArith List String Bool.
Import ListNotations.

Set Warnings "-inexact-float".

(** ** Exceptions and the method monad *)

(** An exception, by the name of its class. *)
Inductive exn : Type := PyExn (cls : string).

Definition NotImplementedError : exn := PyExn "NotImplementedError".
Definition OverflowError : exn := PyExn "OverflowError".
Definition FrozenInstanceError : exn := PyExn "FrozenInstanceError".

Inductive result (A : Type) : Type :=
| Return (a : A)
| Raise (e : exn).

Arguments Return {A} a.
Arguments Raise {A} e.

(** A call on the objects [S]: its outcome, and the objects after it. *)
Definition M (S A : Type) : Type := S -> result A * S.

Definition ret {S A} (a : A) : M S A := fun s => (Return a, s).

Definition raise {S A} (e : exn) : M S A := fun s => (Raise e, s).

Definition bind {S A B} (m : M S A) (k : A -> M S B) : M S B :=
  fun s =>
    match m s with
    | (Return a, s') => k a s'
    | (Raise e, s') => (Raise e, s')
    end.

(** An operation on values, which touches no object. *)
Definition lift {S A} (r : result A) : M S A := fun s => (r, s).

(** Reading an attribute. *)
Definition getattr {S A} (field : S -> A) : M S A := fun s => (Return (field s), s).

(** Assigning to a field of a [dataclass(frozen=True)] instance: the
    generated [__setattr__] raises and stores nothing. *)
Definition setattr {S A} (name : string) (value : A) : M S unit :=
  raise FrozenInstanceError.

Declare Scope method_scope.
Delimit Scope method_scope with method.
Notation "x <- m ;; k" := (bind m (fun x => k))
  (at level 100, m at next level, right associativity) : method_scope.

(** The value a call returns, and the objects it leaves. *)
Definition eval {S A} (m : M S A) (s : S) : result A := fst (m s).
Definition exec {S A} (m : M S A) (s : S) : S := snd (m s).

(** ** Floating-point operations of Python and numpy *)

Module Py.

Local Open Scope float_scope.

(** [a > b] *)
Definition gtb (a b : float) : bool := b <? a.

(** The square of the finite [x] is beyond the largest binary64 value. *)
Definition overflows (x : float) : bool := is_finite x && is_infinity (x * x).

(** [x ** 2] on a Python [float] ([float_pow] of CPython): the rounded
    square, non-negative, except that a finite [x] whose square overflows
    raises [OverflowError]; an infinite [x] gives [inf], a nan gives nan,
    an underflow gives [0.0]. *)
Definition float_pow2 (x : float) : result float :=
  if overflows x then Raise OverflowError else Return (x * x).

(** [d ** 2] on a [numpy.float64]: the rounded square; an overflow gives
    [inf] and a warning, it does not raise. *)
Definition float64_pow2 (d : float) : float := d * d.

End Py.

Infix ">?" := Py.gtb (at level 70, no associativity) : float_scope.

(** [numpy.tan] and [numpy.cos] on binary64, with the facts used about
    them: [tan(0.0) = 0.0], [cos(0.0) = 1.0], [tan] is odd and [cos] is
    even. *)
Record libm : Type := {
  np_tan : float -> float;
  np_cos : float -> float;
  tan_zero : np_tan 0%float = 0%float;
  cos_zero : np_cos 0%float = 1%float;
  tan_opp : forall a : float, np_tan (- a)%float = (- np_tan a)%float;
  cos_opp : forall a : float, np_cos (- a)%float = np_cos a
}.

(** The four facts hold together: the small-angle approximations
    [tan a = a] and [cos a = 1] have them. *)
Definition small_angle : libm :=
  {| np_tan := fun a => a;
     np_cos := fun _ => 1%float;
     tan_zero := eq_refl;
     cos_zero := eq_refl;
     tan_opp := fun _ => eq_refl;
     cos_opp := fun _ => eq_refl |}.

(** ** The module *)

Local Open Scope float_scope.

(** [EARTH_GRAVITY = 1.0  # [a.u.]] *)
Definition EARTH_GRAVITY : float := 1.0.

Module Hill.

Record t : Type := mk { offset : float; slope : float }.

(** [return self.offset + self.slope * x] *)
Definition y (x : float) : M t float :=
  (offset_ <- getattr offset ;;
   slope_ <- getattr slope ;;
   ret (offset_ + slope_ * x))%method.

End Hill.

(** [HILL = Hill(offset=-2.0, slope=-1.0)] *)
Definition HILL : Hill.t := Hill.mk (-2.0) (-1.0).

Module SkiJump.

Record t : Type := mk { v0 : float; alpha : float }.

(** [x] is a Python [float], so [x**2] is [Py.float_pow2] and can raise;
    [self.v0 * np.cos(self.alpha)] is a [numpy.float64], so its square and
    the division by it are numpy's and cannot. *)
Definition y (L : libm) (x : float) : M t float :=
  (alpha_ <- getattr alpha ;;
   v0_ <- getattr v0 ;;
   x2 <- lift (Py.float_pow2 x) ;;
   let y_value :=
     np_tan L alpha_ * x
     - 0.5 * (1 / Py.float64_pow2 (v0_ * np_cos L alpha_) * EARTH_GRAVITY * x2) in
   if (y_value <? 1e-8) && (y_value >? -1e-8)
   then ret 0.0
   else ret y_value)%method.

(** A static method: it has no receiver. *)
Definition from_json_file (path : string) : M unit t :=
  raise NotImplementedError.

(** The receiver and the [hill] argument are the objects of the call. *)
Definition landing : M (t * Hill.t) float :=
  raise NotImplementedError.

Definition sample (n : Z) : M (t * Hill.t) (list float * list float) :=
  let xs : list float := [] in
  let ys : list float := [] in
  ret (xs, ys).

End SkiJump.

(** ** The script *)

(** Calling a method on the objects [objs] from a caller whose own state
    is [S]: the caller gets the outcome of the call. *)
Definition call {S S' A} (m : M S' A) (objs : S') : M S A :=
  fun s => (eval m objs, s).

Module Script.

(** What [parser.parse_args()] returns: the two positional arguments and
    [-n], an [int], 10 when it is not given. *)
Record Namespace : Type := mk { input : string; output : string; n : Z }.

(** The body under [if __name__ == "__main__":], after the arguments are
    parsed.  Its third step is a comment: there is no statement that
    writes the output file. *)
Definition main (args : Namespace) : M unit unit :=
  (my_obj <- SkiJump.from_json_file (input args) ;;
   samples <- call (SkiJump.sample (n args)) (my_obj, HILL) ;;
   let '(my_xs, my_ys) := samples in
   ret tt)%method.

End Script.

(** ** Notions of the specification *)

(** The factor of [x**2] in the trajectory, as the code computes it. *)
Definition coefficient (L : libm) (j : SkiJump.t) : float :=
  1 / Py.float64_pow2 (SkiJump.v0 j * np_cos L (SkiJump.alpha j)) * EARTH_GRAVITY.

(** The curve of the specification, [tan(alpha) * x - 0.5 * g * x^2 /
    (v0*cos(alpha))^2] with [g = 1.0], every operation rounded to binary64
    and taken in the order of the code: the reciprocal of the squared
    divisor first, then [g], then the square of [x]. *)
Definition trajectory (L : libm) (j : SkiJump.t) (x : float) : float :=
  np_tan L (SkiJump.alpha j) * x - 0.5 * (coefficient L j * (x * x)).

(** [v] is strictly inside the snap band. *)
Definition in_band (v : float) : bool := (v <? 1e-8) && (v >? -1e-8).

(** A call that leaves the objects it can reach as they were. *)
Definition frame {S A} (m : M S A) : Prop := forall s : S, exec m s = s.

(** ** Concrete jumps and hills *)

(** A flat launch at speed [1.5]: over [HILL] it comes down at [x = 6]. *)
Definition flat_jump : SkiJump.t := SkiJump.mk 1.5 0.

(** A flat launch at speed [1]. *)
Definition unit_jump : SkiJump.t := SkiJump.mk 1 0.

(** A flat launch at a speed whose square underflows. *)
Definition slow_jump : SkiJump.t := SkiJump.mk 1e-200 0.

(** A jumper who does not move. *)
Definition still_jump : SkiJump.t := SkiJump.mk 0 0.

(** A level surface above the launch point. *)
Definition plateau : Hill.t := Hill.mk 1 0.

(** ** Signs of binary64 values *)

(** The sign of a spec float, [None] for nan. *)
Definition SFsign (x : spec_float) : option bool :=
  match x with
  | S754_zero s | S754_infinity s | S754_finite s _ _ => Some s
  | S754_nan => None
  end.

(** Not negative: a zero, a positive number, [inf]; or nan. *)
Definition SFnonneg (x : spec_float) : Prop :=
  SFsign x = Some false \/ x = S754_nan.

(** Not positive: a zero, a negative number, [-inf]; or nan. *)
Definition SFnonpos (x : spec_float) : Prop :=
  match x with
  | S754_zero _ | S754_nan => True
  | S754_infinity s | S754_finite s _ _ => s = true
  end.

(** ** Facts of binary64 arithmetic *)

Section SpecFacts.

Local Abbreviation SFmul64 := (SFmul prec emax).

(** Rounding keeps the sign it is given. *)
Lemma binary_round_aux_opp (s : bool) (m e : Z) (l : location) :
  binary_round_aux prec emax (negb s) m e l
  = SFopp (binary_round_aux prec emax s m e l).
Proof.
  unfold binary_round_aux.
  destruct (shr_fexp prec emax m e l) as [mrs' e'].
  destruct (shr_fexp prec emax _ e' loc_Exact) as [mrs'' e''].
  destruct (shr_m mrs'') as [| p | p]; [reflexivity | | reflexivity].
  destruct (Z.leb e'' (Z.sub emax prec)); reflexivity.
Qed.

Lemma binary_round_aux_sign (s : bool) (m e : Z) (l : location) :
  SFsign (binary_round_aux prec emax s m e l) = Some s
  \/ binary_round_aux prec emax s m e l = S754_nan.
Proof.
  unfold binary_round_aux.
  destruct (shr_fexp prec emax m e l) as [mrs' e'].
  destruct (shr_fexp prec emax _ e' loc_Exact) as [mrs'' e''].
  destruct (shr_m mrs'') as [| p | p]; [left; reflexivity | | right; reflexivity].
  destruct (Z.leb e'' (Z.sub emax prec)); left; reflexivity.
Qed.

Lemma SFmul_opp_l (x y : spec_float) :
  SFmul64 (SFopp x) y = SFopp (SFmul64 x y).
Proof.
  destruct x as [sx | sx | | sx mx ex], y as [sy | sy | | sy my ey];
    simpl; try reflexivity;
    try (destruct sx, sy; reflexivity).
  rewrite <- binary_round_aux_opp. destruct sx, sy; reflexivity.
Qed.

Lemma SFmul_opp_opp (x y : spec_float) :
  SFmul64 (SFopp x) (SFopp y) = SFmul64 x y.
Proof.
  destruct x as [sx | sx | | sx mx ex], y as [sy | sy | | sy my ey];
    simpl; try reflexivity; destruct sx, sy; reflexivity.
Qed.

(** A product of a value with itself is not negative. *)
Lemma SFmul_self_sign (x : spec_float) :
  SFsign (SFmul64 x x) = Some false \/ SFmul64 x x = S754_nan.
Proof.
  destruct x as [s | s | | s m e]; simpl.
  - left. now destruct s.
  - left. now destruct s.
  - now right.
  - replace (xorb s s) with false by now destruct s.
    apply binary_round_aux_sign.
Qed.

Lemma SFabs_opp (x : spec_float) : SFabs (SFopp x) = SFabs x.
Proof. now destruct x. Qed.

Lemma SFeqb_opp_self (x : spec_float) : SFeqb (SFopp x) (SFopp x) = SFeqb x x.
Proof.
  destruct x as [s | s | | s m e]; try reflexivity.
  - now destruct s.
  - unfold SFeqb. simpl. rewrite Z.compare_refl, Pos.compare_cont_refl.
    now destruct s.
Qed.

End SpecFacts.

Section FloatFacts.

Lemma opp_mul_sq (v c : float) :
  Py.float64_pow2 (- v * c) = Py.float64_pow2 (v * c).
Proof.
  unfold Py.float64_pow2. apply Prim2SF_inj.
  rewrite !mul_spec, opp_spec. unfold SF64mul.
  rewrite SFmul_opp_l. apply SFmul_opp_opp.
Qed.

Lemma mul_opp_opp (a b : float) : - a * - b = a * b.
Proof.
  apply Prim2SF_inj. rewrite !mul_spec, !opp_spec. apply SFmul_opp_opp.
Qed.

Lemma is_nan_opp (x : float) : is_nan (- x) = is_nan x.
Proof.
  unfold is_nan. rewrite !FloatAxioms.eqb_spec, opp_spec. now rewrite SFeqb_opp_self.
Qed.

Lemma abs_opp (x : float) : abs (- x) = abs x.
Proof. apply Prim2SF_inj. rewrite !abs_spec, opp_spec. apply SFabs_opp. Qed.

Lemma is_finite_opp (x : float) : is_finite (- x) = is_finite x.
Proof.
  unfold is_finite, is_infinity. now rewrite is_nan_opp, abs_opp.
Qed.

Lemma overflows_opp (x : float) : Py.overflows (- x) = Py.overflows x.
Proof.
  unfold Py.overflows. now rewrite is_finite_opp, mul_opp_opp.
Qed.

Lemma float_pow2_opp (x : float) : Py.float_pow2 (- x) = Py.float_pow2 x.
Proof.
  unfold Py.float_pow2. now rewrite overflows_opp, mul_opp_opp.
Qed.

End FloatFacts.

(** ** Classes of binary64 values *)

Section Classes.

Lemma Prim2SF_zero : Prim2SF 0 = S754_zero false.
Proof. reflexivity. Qed.

Lemma Prim2SF_one : Prim2SF 1 = S754_finite false 4503599627370496 (-52).
Proof. reflexivity. Qed.

Lemma Prim2SF_half : Prim2SF 0.5 = S754_finite false 4503599627370496 (-53).
Proof. reflexivity. Qed.

Lemma Prim2SF_eps : Prim2SF 1e-8 = S754_finite false 6044629098073146 (-79).
Proof. reflexivity. Qed.

Lemma Prim2SF_neg_eps : Prim2SF (-1e-8) = S754_finite true 6044629098073146 (-79).
Proof. reflexivity. Qed.

Lemma Prim2SF_infinity : Prim2SF infinity = S754_infinity false.
Proof. reflexivity. Qed.

Lemma Prim2SF_neg_infinity : Prim2SF neg_infinity = S754_infinity true.
Proof. reflexivity. Qed.

Lemma Prim2SF_nan : Prim2SF nan = S754_nan.
Proof. reflexivity. Qed.

Lemma is_nan_spec (v : float) :
  is_nan v = match Prim2SF v with S754_nan => true | _ => false end.
Proof.
  unfold is_nan. rewrite FloatAxioms.eqb_spec.
  destruct (Prim2SF v) as [s | s | | s m e]; try reflexivity.
  - now destruct s.
  - unfold SFeqb. simpl. rewrite Z.compare_refl, Pos.compare_cont_refl.
    now destruct s.
Qed.

Lemma is_infinity_spec (v : float) :
  is_infinity v = match Prim2SF v with S754_infinity _ => true | _ => false end.
Proof.
  unfold is_infinity. rewrite FloatAxioms.eqb_spec, abs_spec, Prim2SF_infinity.
  destruct (Prim2SF v) as [s | s | | s m e]; reflexivity.
Qed.

Lemma is_finite_spec (v : float) :
  is_finite v = match Prim2SF v with
                | S754_zero _ | S754_finite _ _ _ => true
                | _ => false
                end.
Proof.
  unfold is_finite. rewrite is_nan_spec, is_infinity_spec.
  destruct (Prim2SF v); reflexivity.
Qed.

(** [v == 0] holds of the two zeros only. *)
Lemma eqb_zero_spec (v : float) :
  (v =? 0) = match Prim2SF v with S754_zero _ => true | _ => false end.
Proof.
  rewrite FloatAxioms.eqb_spec, Prim2SF_zero.
  destruct (Prim2SF v) as [s | s | | s m e]; try reflexivity; now destruct s.
Qed.

(** A zero of either sign is strictly inside the snap band. *)
Lemma zero_in_band (v : float) (s : bool) :
  Prim2SF v = S754_zero s -> in_band v = true.
Proof.
  intros H. unfold in_band, Py.gtb.
  rewrite !ltb_spec, Prim2SF_eps, Prim2SF_neg_eps, H. reflexivity.
Qed.

(** Neither [-inf] nor nan is inside it. *)
Lemma neg_infinity_out_of_band (v : float) :
  Prim2SF v = S754_infinity true -> in_band v = false.
Proof.
  intros H. unfold in_band, Py.gtb.
  rewrite !ltb_spec, Prim2SF_eps, Prim2SF_neg_eps, H. reflexivity.
Qed.

Lemma nan_out_of_band (v : float) :
  Prim2SF v = S754_nan -> in_band v = false.
Proof.
  intros H. unfold in_band, Py.gtb.
  rewrite !ltb_spec, Prim2SF_eps, Prim2SF_neg_eps, H. reflexivity.
Qed.

(** A finite value times a zero is a zero. *)
Lemma mul_finite_zero (a z : float) (s : bool) :
  is_finite a = true -> Prim2SF z = S754_zero s ->
  exists s' : bool, Prim2SF (a * z) = S754_zero s'.
Proof.
  intros Ha Hz. rewrite is_finite_spec in Ha.
  rewrite mul_spec, Hz. unfold SF64mul.
  destruct (Prim2SF a) as [sa | sa | | sa ma ea]; try discriminate;
    eexists; reflexivity.
Qed.

Lemma sub_zero_zero (a b : float) (sa sb : bool) :
  Prim2SF a = S754_zero sa -> Prim2SF b = S754_zero sb ->
  exists s' : bool, Prim2SF (a - b) = S754_zero s'.
Proof.
  intros Ha Hb. rewrite sub_spec, Ha, Hb. unfold SF64sub.
  destruct sa, sb; eexists; reflexivity.
Qed.


End Classes.

(** ** The methods, run *)

Lemma y_run (L : libm) (j : SkiJump.t) (x : float) :
  SkiJump.y L x j =
  (match Py.float_pow2 x with
   | Return x2 =>
       Return (if in_band (np_tan L (SkiJump.alpha j) * x
                           - 0.5 * (coefficient L j * x2))
               then 0
               else np_tan L (SkiJump.alpha j) * x - 0.5 * (coefficient L j * x2))
   | Raise e => Raise e
   end, j).
Proof.
  unfold SkiJump.y, bind, getattr, lift, ret, in_band, coefficient.
  destruct (Py.float_pow2 x) as [x2 | e]; [| reflexivity].
  match goal with |- context [if ?c then _ else _] => destruct c end; reflexivity.
Qed.

(** A finite [x] whose square overflows makes the call raise. *)
Lemma y_overflow (L : libm) (j : SkiJump.t) (x : float) :
  Py.overflows x = true -> eval (SkiJump.y L x) j = Raise OverflowError.
Proof.
  intros H. unfold eval. rewrite y_run. unfold Py.float_pow2. now rewrite H.
Qed.

(** Any other [x] makes it return the snapped trajectory. *)
Lemma y_no_overflow (L : libm) (j : SkiJump.t) (x : float) :
  Py.overflows x = false ->
  eval (SkiJump.y L x) j
  = Return (if in_band (trajectory L j x) then 0 else trajectory L j x).
Proof.
  intros H. unfold eval. rewrite y_run. unfold Py.float_pow2. now rewrite H.
Qed.

(** A flat launch: the tangent is [0.0] and the cosine [1.0] in every
    library. *)
Lemma flat_trajectory (L : libm) (v x : float) :
  trajectory L (SkiJump.mk v 0) x
  = 0 * x - 0.5 * (1 / Py.float64_pow2 (v * 1) * EARTH_GRAVITY * (x * x)).
Proof.
  unfold trajectory, coefficient. cbn [SkiJump.v0 SkiJump.alpha].
  now rewrite tan_zero, cos_zero.
Qed.

Lemma flat_jump_at_6 (L : libm) : eval (SkiJump.y L 6) flat_jump = Return (-8).
Proof.
  rewrite y_no_overflow by reflexivity.
  unfold flat_jump. rewrite flat_trajectory. reflexivity.
Qed.

Lemma HILL_at_6 : eval (Hill.y 6) HILL = Return (-8).
Proof. reflexivity. Qed.

(** ** Calls that leave their objects alone *)

Section Frame.

Context {S : Type}.

Lemma frame_ret (A : Type) (a : A) : frame (ret (S := S) a).
Proof. intros s. reflexivity. Qed.

Lemma frame_raise (A : Type) (e : exn) : frame (raise (S := S) (A := A) e).
Proof. intros s. reflexivity. Qed.

Lemma frame_lift (A : Type) (r : result A) : frame (lift (S := S) r).
Proof. intros s. reflexivity. Qed.

Lemma frame_getattr (A : Type) (field : S -> A) : frame (getattr field).
Proof. intros s. reflexivity. Qed.

Lemma frame_setattr (A : Type) (name : string) (value : A) :
  frame (setattr (S := S) name value).
Proof. intros s. reflexivity. Qed.

Lemma frame_bind (A B : Type) (m : M S A) (k : A -> M S B) :
  frame m -> (forall a : A, frame (k a)) -> frame (bind m k).
Proof.
  intros Hm Hk s. specialize (Hm s). unfold exec, bind in *.
  destruct (m s) as [[a | e] s']; simpl in Hm; subst s'.
  - apply Hk.
  - reflexivity.
Qed.

Lemma frame_if (A : Type) (c : bool) (m1 m2 : M S A) :
  frame m1 -> frame m2 -> frame (if c then m1 else m2).
Proof. destruct c; intros H1 H2; assumption. Qed.

End Frame.

Create HintDb frame.
#[export] Hint Resolve frame_ret frame_raise frame_lift frame_getattr frame_setattr
  frame_bind frame_if : frame.

Lemma Hill_y_frame (x : float) : frame (Hill.y x).
Proof. unfold Hill.y. auto with frame. Qed.

Lemma SkiJump_y_frame (L : libm) (x : float) : frame (SkiJump.y L x).
Proof. unfold SkiJump.y. auto 8 with frame. Qed.

Lemma landing_frame : frame SkiJump.landing.
Proof. unfold SkiJump.landing. auto with frame. Qed.

Lemma sample_frame (n : Z) : frame (SkiJump.sample n).
Proof. unfold SkiJump.sample. auto with frame. Qed.

(** ** The two stubs *)

Lemma landing_raises (j : SkiJump.t) (h : Hill.t) :
  eval SkiJump.landing (j, h) = Raise NotImplementedError.
Proof. reflexivity. Qed.

Lemma sample_returns_nothing (j : SkiJump.t) (h : Hill.t) (n : Z) :
  eval (SkiJump.sample n) (j, h) = Return ([], []).
Proof. reflexivity. Qed.


(** ** The height at speed zero *)

Section ZeroSpeed.

Variable L : libm.
Variable j : SkiJump.t.
Hypothesis still : (SkiJump.v0 j =? 0) = true.

(** The factor of [x**2] is [1/0.0 = inf], or nan when the cosine is not
    finite. *)
Lemma coefficient_zero_speed :
  Prim2SF (coefficient L j) = S754_infinity false
  \/ Prim2SF (coefficient L j) = S754_nan.
Proof.
  rewrite eqb_zero_spec in still.
  unfold coefficient, Py.float64_pow2, EARTH_GRAVITY.
  rewrite mul_spec, div_spec, !mul_spec, Prim2SF_one.
  unfold SF64mul, SF64div.
  destruct (Prim2SF (SkiJump.v0 j)) as [s | s | | s m e]; try discriminate.
  destruct (Prim2SF (np_cos L (SkiJump.alpha j))) as [sc | sc | | sc mc ec];
    cbn [SFmul SFdiv xorb]; auto; destruct s, sc; auto.
Qed.

(** Whatever [tan(alpha) * x] is, the value computed is [-inf] or nan. *)
Lemma y_value_zero_speed (tx x2 : float) :
  SFsign (Prim2SF x2) = Some false \/ Prim2SF x2 = S754_nan ->
  Prim2SF (tx - 0.5 * (coefficient L j * x2)) = S754_infinity true
  \/ Prim2SF (tx - 0.5 * (coefficient L j * x2)) = S754_nan.
Proof.
  intros Hx2.
  rewrite sub_spec, !mul_spec, Prim2SF_half. unfold SF64mul, SF64sub.
  destruct coefficient_zero_speed as [Hc | Hc]; rewrite Hc.
  - destruct (Prim2SF x2) as [s | s | | s m e];
      destruct Hx2 as [Hs | Hs]; try discriminate;
      try (injection Hs as ->);
      destruct (Prim2SF tx) as [st | st | | st mt et];
      cbn [SFmul SFsub xorb negb]; auto;
      destruct st; auto.
  - destruct (Prim2SF x2) as [s | s | | s m e];
      destruct (Prim2SF tx) as [st | st | | st mt et];
      cbn [SFmul SFsub xorb negb]; auto.
Qed.

End ZeroSpeed.

(** The rounded square of any value is not negative. *)
Lemma square_sign (x : float) :
  SFsign (Prim2SF (x * x)) = Some false \/ Prim2SF (x * x) = S754_nan.
Proof. rewrite mul_spec. apply SFmul_self_sign. Qed.

Lemma Prim2SF_neg_infinity_inv (v : float) :
  Prim2SF v = S754_infinity true -> v = neg_infinity.
Proof. intros H. apply Prim2SF_inj. now rewrite H. Qed.

Lemma Prim2SF_nan_inv (v : float) : Prim2SF v = S754_nan -> v = nan.
Proof. intros H. apply Prim2SF_inj. now rewrite H. Qed.

(** ** The height of a flat launch *)

Section FlatLaunch.

Lemma SFmul_nonneg (x y : spec_float) :
  SFnonneg x -> SFnonneg y -> SFnonneg (SFmul prec emax x y).
Proof.
  unfold SFnonneg.
  intros [Hx | ->] [Hy | ->];
    try (right; destruct x; reflexivity); try (now right).
  destruct x as [sx | sx | | sx mx ex], y as [sy | sy | | sy my ey];
    try discriminate; injection Hx as ->; injection Hy as ->;
    cbn [SFmul xorb]; try (now left); try (now right).
  apply binary_round_aux_sign.
Qed.

Lemma SFdiv_nonneg (x y : spec_float) :
  SFnonneg x -> SFnonneg y -> SFnonneg (SFdiv prec emax x y).
Proof.
  unfold SFnonneg.
  intros [Hx | ->] [Hy | ->];
    try (right; destruct x; reflexivity); try (now right).
  destruct x as [sx | sx | | sx mx ex], y as [sy | sy | | sy my ey];
    try discriminate; injection Hx as ->; injection Hy as ->;
    cbn [SFdiv xorb]; try (now left); try (now right).
  destruct (SFdiv_core_binary prec emax (Zpos mx) ex (Zpos my) ey) as [[mz ez] lz].
  apply binary_round_aux_sign.
Qed.

(** A zero or nan, minus a value that is not negative, is not positive. *)
Lemma SFsub_zero_nonneg (z w : spec_float) :
  (exists s : bool, z = S754_zero s) \/ z = S754_nan ->
  SFnonneg w -> SFnonpos (SFsub prec emax z w).
Proof.
  unfold SFnonneg.
  intros [[s ->] | ->] [Hw | ->]; try exact I.
  destruct w as [sw | sw | | sw mw ew]; try discriminate;
    injection Hw as ->; cbn [SFsub negb SFnonpos]; try reflexivity.
  destruct s; exact I.
Qed.

(** [0.0 * x] is a zero, or nan when [x] is not finite. *)
Lemma SFmul_zero_l (x : spec_float) :
  (exists s : bool, SFmul prec emax (S754_zero false) x = S754_zero s)
  \/ SFmul prec emax (S754_zero false) x = S754_nan.
Proof.
  destruct x as [s | s | | s m e]; cbn [SFmul];
    try (now right); left; eexists; reflexivity.
Qed.

Variable L : libm.

Lemma flat_trajectory_nonpos (v x : float) :
  SFnonpos (Prim2SF (trajectory L (SkiJump.mk v 0) x)).
Proof.
  rewrite flat_trajectory. unfold Py.float64_pow2, EARTH_GRAVITY.
  rewrite sub_spec, !mul_spec, div_spec, !mul_spec.
  rewrite Prim2SF_zero, Prim2SF_one, Prim2SF_half.
  unfold SF64sub, SF64mul, SF64div.
  apply SFsub_zero_nonneg; [apply SFmul_zero_l |].
  apply SFmul_nonneg; [now left |].
  apply SFmul_nonneg; [| apply SFmul_self_sign].
  apply SFmul_nonneg; [| now left].
  apply SFdiv_nonneg; [now left |].
  apply SFmul_self_sign.
Qed.

(** What a flat launch returns is not positive. *)
Lemma flat_y_nonpos (v x r : float) :
  eval (SkiJump.y L x) (SkiJump.mk v 0) = Return r -> SFnonpos (Prim2SF r).
Proof.
  intros Hr. destruct (Py.overflows x) eqn:Ho.
  - rewrite (y_overflow L _ x Ho) in Hr. discriminate.
  - rewrite (y_no_overflow L _ x Ho) in Hr.
    destruct (in_band (trajectory L (SkiJump.mk v 0) x)); injection Hr as <-.
    + exact I.
    + apply flat_trajectory_nonpos.
Qed.

End FlatLaunch.

(** The plateau is at height [1.0], or nan where [x] is not finite. *)
Lemma plateau_height (x h : float) :
  eval (Hill.y x) plateau = Return h ->
  Prim2SF h = Prim2SF 1 \/ Prim2SF h = S754_nan.
Proof.
  intros H. injection H as <-. cbn [Hill.offset Hill.slope plateau].
  rewrite add_spec, mul_spec, Prim2SF_zero, Prim2SF_one.
  unfold SF64add, SF64mul.
  destruct (SFmul_zero_l (Prim2SF x)) as [[s ->] | ->]; [left | right]; reflexivity.
Qed.

(** A value that is not positive is not equal to a positive one. *)
Lemma nonpos_neq_one (r h : float) :
  SFnonpos (Prim2SF r) ->
  Prim2SF h = Prim2SF 1 \/ Prim2SF h = S754_nan ->
  (r =? h) = false.
Proof.
  intros Hr Hh. rewrite FloatAxioms.eqb_spec.
  destruct Hh as [-> | ->].
  - rewrite Prim2SF_one.
    destruct (Prim2SF r) as [s | s | | s m e]; cbn [SFnonpos] in Hr;
      try subst s; reflexivity.
  - destruct (Prim2SF r); reflexivity.
Qed.

Lemma unit_jump_on_the_edge (L : libm) :
  trajectory L unit_jump 0.0001414213562373095 = -1e-8.
Proof. unfold unit_jump. rewrite flat_trajectory. reflexivity. Qed.

Lemma slow_jump_at_launch (L : libm) :
  eval (SkiJump.y L 0) slow_jump = Return nan.
Proof.
  rewrite y_no_overflow by reflexivity.
  unfold slow_jump. rewrite flat_trajectory. reflexivity.
Qed.

Lemma flat_cos_nonzero (L : libm) (v : float) :
  (np_cos L (SkiJump.alpha (SkiJump.mk v 0)) =? 0) = false.
Proof. cbn [SkiJump.alpha]. rewrite cos_zero. reflexivity. Qed.

Lemma flat_jump_tan_finite (L : libm) :
  is_finite (np_tan L (SkiJump.alpha flat_jump)) = true.
Proof. cbn [SkiJump.alpha flat_jump]. rewrite tan_zero. reflexivity. Qed.

Lemma flat_jump_coefficient_finite (L : libm) :
  is_finite (coefficient L flat_jump) = true.
Proof.
  unfold coefficient. cbn [SkiJump.v0 SkiJump.alpha flat_jump].
  rewrite cos_zero. reflexivity.
Qed.


(** The unit jump at this [x] is exactly on the lower edge of the band,
    and the value is returned as it is. *)
Lemma edge_value_is_returned (L : libm) :
  eval (SkiJump.y L 0.0001414213562373095) unit_jump = Return (-1e-8).
Proof.
  rewrite y_no_overflow by reflexivity.
  now rewrite unit_jump_on_the_edge.
Qed.

(** * The claims *)

(** C4.  For every hill and every [x], [Hill.y(x)] returns exactly
    [offset + slope * x]; the call cannot raise and leaves the hill as it
    was. *)
Theorem Hill_y_linear (h : Hill.t) (x : float) :
  Hill.y x h = (Return (Hill.offset h + Hill.slope h * x), h).
Proof. reflexivity. Qed.

(** C9.  No method changes a field of its receiver or of its argument:
    after [Hill.y], [SkiJump.y], [SkiJump.landing] and [SkiJump.sample] the
    hill and the jump are the objects they were before the call. *)
Theorem methods_change_no_field
  (L : libm) (self : SkiJump.t) (hill : Hill.t) (x : float) (n : Z) :
  exec (Hill.y x) hill = hill /\
  exec (SkiJump.y L x) self = self /\
  exec SkiJump.landing (self, hill) = (self, hill) /\
  exec (SkiJump.sample n) (self, hill) = (self, hill).
Proof.
  split; [apply Hill_y_frame |].
  split; [apply SkiJump_y_frame |].
  split; [apply landing_frame | apply sample_frame].
Qed.

(** C1 (a defect of the code).  The flat jump at speed [1.5] meets [HILL]
    at [x = 6], where both heights are [-8]; [landing] does not return that
    point, it raises [NotImplementedError]. *)
Theorem landing_raises_at_a_landing_point (L : libm) :
  (0 <? SkiJump.v0 flat_jump) = true /\
  (np_cos L (SkiJump.alpha flat_jump) =? 0) = false /\
  (6 =? 0) = false /\
  eval (SkiJump.y L 6) flat_jump = eval (Hill.y 6) HILL /\
  eval SkiJump.landing (flat_jump, HILL) = Raise NotImplementedError.
Proof.
  split; [reflexivity |].
  split; [cbn [SkiJump.alpha flat_jump]; rewrite cos_zero; reflexivity |].
  split; [reflexivity |]. split.
  - rewrite flat_jump_at_6, HILL_at_6. reflexivity.
  - apply landing_raises.
Qed.

(** C2 (a defect of the code).  Asked for five points, [sample] returns
    two empty sequences. *)
Theorem sample_of_five_is_empty :
  exists xs ys : list float,
    eval (SkiJump.sample 5) (flat_jump, HILL) = Return (xs, ys) /\
    xs = [] /\ ys = [] /\ Z.of_nat (List.length xs) <> 5%Z.
Proof.
  exists [], []. repeat split. simpl. discriminate.
Qed.



(** C8, as the code has it.  When [tan(alpha)] and the factor
    [1/(v0*cos(alpha))**2 * g] the code computes are finite,
    [SkiJump.y(0.0)] returns exactly [0.0], by the branch that snaps. *)
Theorem y_at_launch (L : libm) (j : SkiJump.t) :
  is_finite (np_tan L (SkiJump.alpha j)) = true ->
  is_finite (coefficient L j) = true ->
  eval (SkiJump.y L 0) j = Return 0.
Proof.
  intros Ht Hc. rewrite y_no_overflow by reflexivity.
  assert (Hb : in_band (trajectory L j 0) = true).
  { unfold trajectory. change (0 * 0) with 0.
    destruct (mul_finite_zero _ 0 false Ht Prim2SF_zero) as [s1 H1].
    destruct (mul_finite_zero _ 0 false Hc Prim2SF_zero) as [s2 H2].
    destruct (mul_finite_zero 0.5 _ s2 eq_refl H2) as [s3 H3].
    destruct (sub_zero_zero _ _ s1 s3 H1 H3) as [s4 H4].
    exact (zero_in_band _ s4 H4). }
  now rewrite Hb.
Qed.

Lemma y_at_launch_witness :
  (forall L : libm, is_finite (np_tan L (SkiJump.alpha flat_jump)) = true) /\
  (forall L : libm, is_finite (coefficient L flat_jump) = true) /\
  (forall L : libm, eval (SkiJump.y L 0) flat_jump = Return 0).
Proof.
  split; [exact flat_jump_tan_finite |].
  split; [exact flat_jump_coefficient_finite |].
  exact (fun L => y_at_launch L flat_jump (flat_jump_tan_finite L)
                    (flat_jump_coefficient_finite L)).
Defined.

(** C8 as stated fails: for [v0 = 1e-200 > 0] and [alpha = 0.0] the square
    of [v0*cos(alpha)] underflows to [0.0] and [y(0)] returns nan, not
    [0.0]. *)
Lemma y_at_launch_is_nan :
  (0 <? SkiJump.v0 slow_jump) = true /\
  (forall L : libm, (np_cos L (SkiJump.alpha slow_jump) =? 0) = false) /\
  (forall L : libm, eval (SkiJump.y L 0) slow_jump = Return nan) /\
  (nan =? 0) = false.
Proof.
  split; [reflexivity |]. split; [intros L; apply flat_cos_nonzero |].
  split; [exact slow_jump_at_launch | reflexivity].
Qed.



(** C7, as the code has it.  At speed zero [SkiJump.y(x)] raises
    [OverflowError] when [x] is finite and its square overflows;
    otherwise it returns [-inf] or nan, never a finite number. *)
Theorem y_zero_speed (L : libm) (j : SkiJump.t) (x : float) :
  (SkiJump.v0 j =? 0) = true ->
  (Py.overflows x = true -> eval (SkiJump.y L x) j = Raise OverflowError) /\
  (Py.overflows x = false ->
   eval (SkiJump.y L x) j = Return neg_infinity
   \/ eval (SkiJump.y L x) j = Return nan).
Proof.
  intros Hv. split; [apply y_overflow |].
  intros Ho. rewrite (y_no_overflow L j x Ho). unfold trajectory.
  destruct (y_value_zero_speed L j Hv (np_tan L (SkiJump.alpha j) * x) (x * x)
              (square_sign x)) as [H | H].
  - rewrite (neg_infinity_out_of_band _ H).
    left. f_equal. now apply Prim2SF_neg_infinity_inv.
  - rewrite (nan_out_of_band _ H).
    right. f_equal. now apply Prim2SF_nan_inv.
Qed.

Lemma still_jump_still : (SkiJump.v0 still_jump =? 0) = true.
Proof. reflexivity. Qed.

Lemma y_zero_speed_witness :
  (SkiJump.v0 still_jump =? 0) = true /\
  (forall L : libm,
      (Py.overflows 1 = true ->
       eval (SkiJump.y L 1) still_jump = Raise OverflowError) /\
      (Py.overflows 1 = false ->
       eval (SkiJump.y L 1) still_jump = Return neg_infinity
       \/ eval (SkiJump.y L 1) still_jump = Return nan)).
Proof.
  split; [exact still_jump_still |].
  exact (fun L => y_zero_speed L still_jump 1 still_jump_still).
Defined.

(** C7 as stated fails: at speed zero [y(1e200)] raises [OverflowError],
    which is not an [InvalidParameterError] and returns no infinity or
    nan. *)
Lemma y_zero_speed_overflows :
  (SkiJump.v0 still_jump =? 0) = true /\
  (forall L : libm, eval (SkiJump.y L 1e200) still_jump = Raise OverflowError) /\
  OverflowError <> PyExn "InvalidParameterError".
Proof.
  split; [reflexivity |]. split; [| discriminate].
  intros L. apply y_overflow. reflexivity.
Qed.

(** C5 (a defect of the code).  The unit jump is at no [x] at the height
    of the plateau, so [landing] should fail with a [NoIntersectionError];
    it raises [NotImplementedError], as it does for every jump and hill. *)
Theorem landing_raises_NotImplementedError :
  (forall (L : libm) (x r h : float),
      eval (SkiJump.y L x) unit_jump = Return r ->
      eval (Hill.y x) plateau = Return h ->
      (r =? h) = false) /\
  eval SkiJump.landing (unit_jump, plateau) = Raise NotImplementedError /\
  eval SkiJump.landing (unit_jump, plateau) <> Raise (PyExn "NoIntersectionError").
Proof.
  split; [| split; [reflexivity | discriminate]].
  intros L x r h Hr Hh.
  apply nonpos_neq_one; [exact (flat_y_nonpos L 1 x r Hr) | exact (plateau_height x h Hh)].
Qed.


(** * Further properties of the code *)

(** X1.  [v0] enters [SkiJump.y] through a square only: a jump with speed
    [-v] has, at every [x], the height of the jump with speed [v]. *)
Theorem y_ignores_sign_of_v0 (L : libm) (v a x : float) :
  eval (SkiJump.y L x) (SkiJump.mk (- v) a) = eval (SkiJump.y L x) (SkiJump.mk v a).
Proof.
  unfold eval. rewrite !y_run. unfold coefficient.
  cbn [SkiJump.v0 SkiJump.alpha fst]. now rewrite opp_mul_sq.
Qed.

(** X2.  Mirror symmetry: launching at the angle [-alpha] and looking at
    [-x] gives the height of the launch at [alpha] seen at [x]. *)
Theorem y_mirror (L : libm) (v a x : float) :
  eval (SkiJump.y L (- x)) (SkiJump.mk v (- a)) = eval (SkiJump.y L x) (SkiJump.mk v a).
Proof.
  unfold eval. rewrite !y_run. unfold coefficient.
  cbn [SkiJump.v0 SkiJump.alpha fst].
  now rewrite float_pow2_opp, tan_opp, cos_opp, mul_opp_opp.
Qed.

(** X7.  Whatever its arguments, the script stops at its first step:
    [from_json_file] raises [NotImplementedError] and [sample] is not
    reached. *)
Theorem main_raises (args : Script.Namespace) :
  eval (Script.main args) tt = Raise NotImplementedError.
Proof. reflexivity. Qed.

(** X13.  A flat launch never rises above the launch point: with
    [alpha = 0.0], whatever the speed and [x], a height [SkiJump.y]
    returns is not greater than zero. *)
Theorem flat_launch_not_above (L : libm) (v x r : float) :
  eval (SkiJump.y L x) (SkiJump.mk v 0) = Return r -> (0 <? r) = false.
Proof.
  intros Hr. pose proof (flat_y_nonpos L v x r Hr) as Hn.
  rewrite ltb_spec, Prim2SF_zero.
  destruct (Prim2SF r) as [s | s | | s m e]; cbn [SFnonpos] in Hn;
    try subst s; reflexivity.
Qed.

Lemma flat_launch_not_above_witness :
  (forall L : libm, eval (SkiJump.y L 6) (SkiJump.mk 1.5 0) = Return (-8)) /\
  (forall L : libm, (0 <? -8) = false).
Proof.
  split; [exact flat_jump_at_6 |].
  exact (fun L => flat_launch_not_above L 1.5 6 (-8) (flat_jump_at_6 L)).
Defined.

(** X14.  The one way [SkiJump.y] fails: it raises exactly when [x] is
    finite and its square overflows, and what it raises then is
    [OverflowError]; a zero speed, an infinite or a nan argument do not
    make it raise. *)
Theorem y_raises_iff (L : libm) (j : SkiJump.t) (x : float) (e : exn) :
  eval (SkiJump.y L x) j = Raise e <->
  Py.overflows x = true /\ e = OverflowError.
Proof.
  destruct (Py.overflows x) eqn:Ho.
  - rewrite (y_overflow L j x Ho). split.
    + intros H. injection H as <-. now split.
    + intros [_ ->]. reflexivity.
  - rewrite (y_no_overflow L j x Ho). split.
    + discriminate.
    + intros [H _]. discriminate.
Qed.
